(** * verify_grid_controls.py: the grid-selector verification script

    A shallow embedding of [verify_grid_controls] (one sequential Playwright
    script) and the properties of its runs: which artifacts are written,
    what is caught and re-raised, when the browser is closed, and in which
    order the automation calls are issued.

    The browser automation library and the target web application are not
    part of the script: they are an arbitrary state machine [respond] that
    answers every automation call either by returning or by raising.  All
    general theorems hold for every such machine.

    The calls that can raise are the ones the error handling of the script
    is about: launch, new_page, goto, wait_for, click, hover and screenshot
    (the one in the handler included).  [print], [page.locator] (which
    resolves nothing), [browser.close()] and the entry and exit of the
    playwright context are recorded in the trace and complete. *)

From Stdlib Require Import ZArith String Ascii Strings.Byte List.
From stdpp Require Import base gmap strings fin_maps.
Import ListNotations.

Local Open Scope string_scope.

(** ** Values of the script *)

(** A PNG image, as the bytes written to disk. *)
Definition Png : Type := list Byte.byte.

(** Instances of Python's [Exception] raised by the automation layer
    ([playwright.sync_api.Error] and its subclass [TimeoutError], or any
    other [Exception]).  [exc_message] is what [str(e)] yields. *)
Inductive ExcClass := TimeoutError | Error | OtherException.

Record Exception := mkException {
  exc_class : ExcClass;
  exc_message : string
}.

(** The automation calls of the script.  The keyword argument [timeout] is
    optional on each of them; [None] is a call written without it. *)
Inductive Call :=
| Launch                                                        (* p.chromium.launch() *)
| NewPage                                                       (* browser.new_page() *)
| Goto (url : string) (timeout : option Z)                      (* page.goto(url) *)
| WaitFor (selector state : string) (timeout : option Z)        (* locator.wait_for(state=, timeout=) *)
| Screenshot (path : string) (timeout : option Z)               (* page.screenshot(path=) *)
| Click (selector : string) (timeout : option Z)                (* locator.click() *)
| Hover (selector : string) (timeout : option Z).               (* locator.hover() *)

(** What a run does, in order. *)
Inductive Event :=
| EvEnter                                   (* entering [with sync_playwright()] *)
| EvCall (c : Call) (raised : option Exception)
| EvLocator (selector : string)             (* page.locator(selector) *)
| EvPrint (line : string)                   (* print(line) *)
| EvClose                                   (* browser.close() *)
| EvExit.                                   (* leaving [with sync_playwright()] *)

(** Result of a Python block: it completes with a value or raises. *)
Inductive Res (A : Type) :=
| Ret (a : A)
| Raise (e : Exception).
Arguments Ret {A} a.
Arguments Raise {A} e.

(** ** Constants of the script *)

Definition dquote : string := String "034"%char EmptyString.

Definition testid (name : string) : string :=
  "[data-testid=" ++ dquote ++ name ++ dquote ++ "]".

Definition APP_URL : string := "http://localhost:5173".
Definition TRIGGER : string := Eval cbv in testid "grid-selector-trigger".
Definition POPOVER : string := Eval cbv in testid "grid-selector-popover".
Definition CELL_2_2 : string := Eval cbv in testid "grid-cell-2-2".
Definition PATH_INITIAL : string := "verification_initial.png".
Definition PATH_OPEN : string := "verification_open.png".
Definition PATH_ERROR : string := "verification_error.png".
Definition TRIGGER_TIMEOUT : Z := 10000.
Definition POPOVER_TIMEOUT : Z := 2000.
Definition MSG_DONE : string := "Verification script completed successfully.".

(** The f-string [f"Error during verification: {e}"]. *)
Definition error_line (e : Exception) : string :=
  "Error during verification: " ++ exc_message e.

(** Playwright timeouts are given in milliseconds; the time unit of the
    specification is the second. *)
Definition MS_PER_UNIT : Z := 1000.

(** ** The script, over an arbitrary automation layer *)

Section Script.

(** State of the browser together with the application it displays. *)
Variable B : Type.
(** Answer of the layer to a call: [None] when the call returns,
    [Some e] when it raises [e]; and the state after the call. *)
Variable respond : B -> Call -> option Exception * B.
(** The image a screenshot of the current page yields. *)
Variable render : B -> Png.

Record World := mkWorld {
  browser : B;
  files : gmap string Png;       (* the working directory *)
  trace : list Event
}.

Definition M (A : Type) : Type := World -> Res A * World.

Definition ret {A} (a : A) : M A := fun w => (Ret a, w).

Definition bind {A C} (m : M A) (k : A -> M C) : M C :=
  fun w => match m w with
           | (Ret a, w') => k a w'
           | (Raise e, w') => (Raise e, w')
           end.

Notation "x <- m ;; k" := (bind m (fun x => k))
  (at level 100, m at next level, right associativity).
Notation "m ;;; k" := (bind m (fun _ => k))
  (at level 100, right associativity).

Definition emit (ev : Event) : M unit :=
  fun w => (Ret tt, mkWorld (browser w) (files w) (trace w ++ [ev])).

(** A successful [page.screenshot(path=p)] replaces the file at [p]. *)
Definition written (c : Call) (r : option Exception) (b : B)
    (fs : gmap string Png) : gmap string Png :=
  match c, r with
  | Screenshot p _, None => <[p := render b]> fs
  | _, _ => fs
  end.

Definition call (c : Call) : M unit :=
  fun w =>
    let (r, b') := respond (browser w) c in
    let w' := mkWorld b' (written c r (browser w) (files w))
                      (trace w ++ [EvCall c r]) in
    match r with
    | None => (Ret tt, w')
    | Some e => (Raise e, w')
    end.

Definition print (line : string) : M unit := emit (EvPrint line).

(** [page.locator(selector)]: builds the query descriptor, resolves nothing. *)
Definition locator (selector : string) : M string :=
  emit (EvLocator selector) ;;; ret selector.

(** [browser.close()], the release of the browser.  Playwright lets a
    close of an already closed target pass; the release completes. *)
Definition browser_close : M unit := emit EvClose.

(** [try: body except Exception as e: handler e] *)
Definition try_except {A} (body : M A) (handler : Exception -> M A) : M A :=
  fun w => match body w with
           | (Ret a, w') => (Ret a, w')
           | (Raise e, w') => handler e w'
           end.

(** [try: body finally: fin]: [fin] runs on both exits; an exception of
    [fin] replaces the pending outcome. *)
Definition try_finally {A} (body : M A) (fin : M unit) : M A :=
  fun w => match body w with
           | (r, w') =>
               match fin w' with
               | (Ret _, w'') => (r, w'')
               | (Raise e, w'') => (Raise e, w'')
               end
           end.

Definition raise {A} (e : Exception) : M A := fun w => (Raise e, w).

(** [with sync_playwright() as p: body] *)
Definition with_sync_playwright {A} (body : M A) : M A :=
  emit EvEnter ;;; try_finally body (emit EvExit).

(** Lines 9-40: the block under [try]. *)
Definition guarded_steps : M unit :=
  print "Navigating to app..." ;;;
  call (Goto APP_URL None) ;;;
  print "Waiting for grid controls..." ;;;
  grid_trigger <- locator TRIGGER ;;
  call (WaitFor grid_trigger "visible" (Some TRIGGER_TIMEOUT)) ;;;
  print "Taking initial screenshot..." ;;;
  call (Screenshot PATH_INITIAL None) ;;;
  print "Opening grid selector..." ;;;
  call (Click grid_trigger None) ;;;
  popover <- locator POPOVER ;;
  call (WaitFor popover "visible" (Some POPOVER_TIMEOUT)) ;;;
  print "Hovering over cell 2x2..." ;;;
  cell_2_2 <- locator CELL_2_2 ;;
  call (Hover cell_2_2 None) ;;;
  print "Taking open state screenshot..." ;;;
  call (Screenshot PATH_OPEN None) ;;;
  print MSG_DONE.

(** Lines 42-45: the [except Exception as e] block. *)
Definition on_error (e : Exception) : M unit :=
  print (error_line e) ;;;
  call (Screenshot PATH_ERROR None) ;;;
  raise e.

Definition verify_grid_controls : M unit :=
  with_sync_playwright (
    call Launch ;;;
    call NewPage ;;;
    try_finally (try_except guarded_steps on_error) browser_close).

(** One run of the script as a process: a fresh browser in state [b0],
    the working directory holding [fs0]. *)
Definition run (b0 : B) (fs0 : gmap string Png) : Res unit * World :=
  verify_grid_controls (mkWorld b0 fs0 []).

Definition outcome (b0 : B) (fs0 : gmap string Png) : Res unit := fst (run b0 fs0).
Definition events (b0 : B) (fs0 : gmap string Png) : list Event := trace (snd (run b0 fs0)).
Definition files_after (b0 : B) (fs0 : gmap string Png) : gmap string Png :=
  files (snd (run b0 fs0)).

(** [if __name__ == "__main__": verify_grid_controls()]: an exception that
    reaches the top level ends the process with status 1. *)
Definition exit_status (b0 : B) (fs0 : gmap string Png) : Z :=
  match outcome b0 fs0 with
  | Ret _ => 0
  | Raise _ => 1
  end.

End Script.

Arguments mkWorld {B} _ _ _.
Arguments browser {B} _.
Arguments files {B} _.
Arguments trace {B} _.

(** ** Concrete automation layers

    A layer whose answer to a call depends on the call alone; its state
    counts the calls answered, and a screenshot shows that count (the PNG
    signature followed by as many zero bytes). *)

Definition scripted (answer : Call -> option Exception) (n : nat) (c : Call)
    : option Exception * nat :=
  (answer c, S n).

Definition frame (n : nat) : Png :=
  ([Byte.x89; Byte.x50; Byte.x4e; Byte.x47] ++ repeat Byte.x00 n)%list.

Definition timeout_error (what : string) : Exception :=
  mkException TimeoutError ("Timeout exceeded waiting for " ++ what).

Definition io_error : Exception :=
  mkException OtherException "Permission denied: verification_error.png".

Definition launch_error : Exception :=
  mkException Error "Executable does not exist".

Definition target_closed : Exception :=
  mkException Error "Target page, context or browser has been closed".

(** The application renders the grid selector and every call returns. *)
Definition healthy (c : Call) : option Exception := None.

(** The trigger never shows up. *)
Definition no_trigger (c : Call) : option Exception :=
  match c with
  | WaitFor sel _ _ => if String.eqb sel TRIGGER then Some (timeout_error "trigger") else None
  | _ => None
  end.

(** The trigger is there, the popover never opens. *)
Definition no_popover (c : Call) : option Exception :=
  match c with
  | WaitFor sel _ _ => if String.eqb sel POPOVER then Some (timeout_error "popover") else None
  | _ => None
  end.

(** The trigger never shows up and the working directory is read-only. *)
Definition no_trigger_read_only (c : Call) : option Exception :=
  match c with
  | WaitFor sel _ _ => if String.eqb sel TRIGGER then Some (timeout_error "trigger") else None
  | Screenshot _ _ => Some io_error
  | _ => None
  end.

(** The popover never opens and the error capture cannot be written. *)
Definition no_popover_no_error_capture (c : Call) : option Exception :=
  match c with
  | WaitFor sel _ _ => if String.eqb sel POPOVER then Some (timeout_error "popover") else None
  | Screenshot p _ => if String.eqb p PATH_ERROR then Some io_error else None
  | _ => None
  end.

(** The browser cannot be started. *)
Definition no_browser (c : Call) : option Exception :=
  match c with
  | Launch => Some launch_error
  | _ => None
  end.

(** The browser starts, the page cannot be created. *)
Definition no_page (c : Call) : option Exception :=
  match c with
  | NewPage => Some target_closed
  | _ => None
  end.

(** Navigation cannot reach the application and the error capture fails too. *)
Definition unreachable_no_capture (c : Call) : option Exception :=
  match c with
  | Goto _ _ => Some (mkException Error "net::ERR_CONNECTION_REFUSED")
  | Screenshot _ _ => Some target_closed
  | _ => None
  end.

(** An empty working directory. *)
Definition empty_dir : gmap string Png := ∅.

(** ** Observations on a run *)

Fixpoint count (P : Event -> bool) (t : list Event) : nat :=
  match t with
  | [] => 0
  | ev :: t' => (if P ev then 1 else 0) + count P t'
  end.

(** [page.screenshot(path=p)] returned: the file at [p] was written. *)
Definition is_capture (p : string) (ev : Event) : bool :=
  match ev with
  | EvCall (Screenshot q _) None => String.eqb p q
  | _ => false
  end.

(** [page.screenshot(path=p)] was called, whatever came of it. *)
Definition is_attempt (p : string) (ev : Event) : bool :=
  match ev with
  | EvCall (Screenshot q _) _ => String.eqb p q
  | _ => false
  end.

Definition is_close (ev : Event) : bool :=
  match ev with EvClose => true | _ => false end.

Definition is_exit (ev : Event) : bool :=
  match ev with EvExit => true | _ => false end.

Definition is_enter (ev : Event) : bool :=
  match ev with EvEnter => true | _ => false end.

(** The session of a run is the scope of [with sync_playwright()] (l.4),
    inside which the browser and its page live; it is acquired when the
    scope is entered and released when the scope is left. *)
Definition acquisitions (t : list Event) : nat := count is_enter t.
Definition releases (t : list Event) : nat := count is_exit t.

(** The number of progress lines printed when the call [c] of the [try]
    block is issued (the popover wait has no line of its own). *)
Definition lines_before (c : Call) : nat :=
  match c with
  | Launch | NewPage => 0
  | Goto _ _ => 1
  | WaitFor sel _ _ => if String.eqb sel TRIGGER then 2 else 4
  | Screenshot p _ => if String.eqb p PATH_INITIAL then 3 else 6
  | Click _ _ => 4
  | Hover _ _ => 5
  end.

Definition is_raise (ev : Event) : bool :=
  match ev with EvCall _ (Some _) => true | _ => false end.

Fixpoint starts_with (pre s : string) : bool :=
  match pre, s with
  | EmptyString, _ => true
  | String a pre', String b s' => Ascii.eqb a b && starts_with pre' s'
  | String _ _, EmptyString => false
  end.

(** The line printed on entry to the [except] block. *)
Definition is_error_log (ev : Event) : bool :=
  match ev with
  | EvPrint line => starts_with "Error during verification: " line
  | _ => false
  end.

Definition success_artifacts (t : list Event) : nat :=
  count (is_capture PATH_INITIAL) t + count (is_capture PATH_OPEN) t.

Definition error_artifacts (t : list Event) : nat :=
  count (is_capture PATH_ERROR) t.

Definition closes (t : list Event) : nat := count is_close t.

(** Standard output of the run. *)
Fixpoint stdout (t : list Event) : list string :=
  match t with
  | [] => []
  | EvPrint line :: t' => line :: stdout t'
  | _ :: t' => stdout t'
  end.

(** What happens after the first automation call that raises. *)
Fixpoint after_first_raise (t : list Event) : list Event :=
  match t with
  | [] => []
  | ev :: t' => if is_raise ev then t' else after_first_raise t'
  end.

(** The first automation call that raises, with its exception. *)
Fixpoint first_raise (t : list Event) : option (Call * Exception) :=
  match t with
  | [] => None
  | EvCall c (Some e) :: _ => Some (c, e)
  | _ :: t' => first_raise t'
  end.

(** The browser was launched and its page created: the [try] was entered. *)
Definition session_acquired (t : list Event) : bool :=
  existsb (fun ev => match ev with EvCall NewPage None => true | _ => false end) t.

(** Lookup of, or hover over, the grid cell. *)
Definition uses_cell (ev : Event) : bool :=
  match ev with
  | EvLocator sel => String.eqb sel CELL_2_2
  | EvCall (Hover _ _) _ => true
  | _ => false
  end.

(** The popover wait returned. *)
Definition popover_visible (ev : Event) : bool :=
  match ev with
  | EvCall (WaitFor sel st (Some t)) None =>
      String.eqb sel POPOVER && String.eqb st "visible" && Z.eqb t POPOVER_TIMEOUT
  | _ => false
  end.

(** Every [Q]-event of [t] has a [P]-event somewhere before it
    ([seen]: a [P]-event occurred already). *)
Fixpoint guarded_by (P Q : Event -> bool) (seen : bool) (t : list Event) : bool :=
  match t with
  | [] => true
  | ev :: t' => (negb (Q ev) || seen) && guarded_by P Q (seen || P ev) t'
  end.

(** The explicit [timeout=] of a call. *)
Definition timeout_of (c : Call) : option Z :=
  match c with
  | Launch | NewPage => None
  | Goto _ t | WaitFor _ _ t | Screenshot _ t | Click _ t | Hover _ t => t
  end.

(** The calls of steps 2-8, between navigation and the second screenshot. *)
Definition GUARDED_CALLS : list Call :=
  [ Goto APP_URL None;
    WaitFor TRIGGER "visible" (Some TRIGGER_TIMEOUT);
    Screenshot PATH_INITIAL None;
    Click TRIGGER None;
    WaitFor POPOVER "visible" (Some POPOVER_TIMEOUT);
    Hover CELL_2_2 None;
    Screenshot PATH_OPEN None ].

Definition returned (c : Call) (t : list Event) : Prop := In (EvCall c None) t.
Definition raised (c : Call) (e : Exception) (t : list Event) : Prop :=
  In (EvCall c (Some e)) t.

(** All automation calls of the script, in the order it issues them. *)
Definition SCRIPT_CALLS : list Call := Launch :: NewPage :: GUARDED_CALLS.

(** The progress lines of the [try] block, in the order they are printed. *)
Definition PROGRESS_LINES : list string :=
  [ "Navigating to app...";
    "Waiting for grid controls...";
    "Taking initial screenshot...";
    "Opening grid selector...";
    "Hovering over cell 2x2...";
    "Taking open state screenshot..." ].

(** The automation calls of a trace, each with what came of it. *)
Fixpoint calls (t : list Event) : list (Call * option Exception) :=
  match t with
  | [] => []
  | EvCall c r :: t' => (c, r) :: calls t'
  | _ :: t' => calls t'
  end.

(** A call that returned. *)
Definition ok (c : Call) : Call * option Exception := (c, None).

(** What happens after the first event that satisfies [P]. *)
Fixpoint after_first (P : Event -> bool) (t : list Event) : list Event :=
  match t with
  | [] => []
  | ev :: t' => if P ev then t' else after_first P t'
  end.

Section States.

Variable B : Type.
Variable respond : B -> Call -> option Exception * B.

(** The state of the layer once it has answered the calls [cs] in turn. *)
Definition state_after (cs : list Call) (b : B) : B :=
  fold_left (fun b c => snd (respond b c)) cs b.


End States.

(** ** Statements that do not hold as the specification words them *)

Section Statements.

Variable B : Type.
Variable respond : B -> Call -> option Exception * B.
Variable render : B -> Png.
Variable b0 : B.
Variable fs0 : gmap string Png.

Let t := events B respond render b0 fs0.

(** The trigger wait times out: no success artifact, exactly one error
    artifact, failure status. *)
Definition trigger_timeout_statement : Prop :=
  forall e, raised (WaitFor TRIGGER "visible" (Some TRIGGER_TIMEOUT)) e t ->
    success_artifacts t = 0 /\ error_artifacts t = 1 /\
    (exit_status B respond render b0 fs0 <> 0%Z).

(** The trigger is visible and clicked, the popover wait times out: one
    success artifact, one error artifact, failure status. *)
Definition popover_timeout_statement : Prop :=
  forall e,
    returned (WaitFor TRIGGER "visible" (Some TRIGGER_TIMEOUT)) t ->
    returned (Click TRIGGER None) t ->
    raised (WaitFor POPOVER "visible" (Some POPOVER_TIMEOUT)) e t ->
    success_artifacts t = 1 /\ error_artifacts t = 1 /\
    (exit_status B respond render b0 fs0 <> 0%Z).

(** A step between navigation and the second screenshot raises [e]: the
    handler runs once, the error capture is written, [e] is logged and
    re-raised, the status is non-zero. *)
Definition caught_and_reraised_statement : Prop :=
  forall c e, In c GUARDED_CALLS -> raised c e t ->
    count is_error_log t = 1 /\
    In (error_line e) (stdout t) /\
    error_artifacts t = 1 /\
    outcome B respond render b0 fs0 = Raise e /\
    (exit_status B respond render b0 fs0 <> 0%Z).

End Statements.

(** Membership in the trace of a concrete run, by evaluation. *)
Ltac by_run := vm_compute; repeat (first [left; reflexivity | right]).

(** ** Lemmas on traces *)

(** The scan [guarded_by] decides what it is named after. *)
Lemma guarded_by_sound (P Q : Event -> bool) (t : list Event) :
  forall seen, guarded_by P Q seen t = true ->
  forall l1 ev l2, t = (l1 ++ ev :: l2)%list -> Q ev = true ->
    seen = true \/ exists ev', In ev' l1 /\ P ev' = true.
Proof.
  induction t as [|x t IH]; intros seen Hscan l1 ev l2 Hsplit HQ.
  - destruct l1; discriminate Hsplit.
  - cbn [guarded_by] in Hscan. apply andb_prop in Hscan as [Hx Hrest].
    destruct l1 as [|y l1]; cbn [app] in Hsplit; injection Hsplit as -> ->.
    + rewrite HQ in Hx. cbn in Hx. left. exact Hx.
    + destruct (IH _ Hrest _ _ _ eq_refl HQ) as [Hseen | (ev' & Hin & HP)].
      * apply orb_prop in Hseen as [Hseen | HPy]; [left; exact Hseen|].
        right. exists y. split; [left; reflexivity | exact HPy].
      * right. exists ev'. split; [right; exact Hin | exact HP].
Qed.

Lemma paths_distinct :
  PATH_INITIAL <> PATH_OPEN /\ PATH_INITIAL <> PATH_ERROR /\ PATH_OPEN <> PATH_ERROR.
Proof. repeat split; discriminate. Qed.

(** ** Properties of every run *)

Section Properties.

Variable B : Type.
Variable respond : B -> Call -> option Exception * B.
Variable render : B -> Png.

Abbreviation events := (events B respond render).
Abbreviation outcome := (outcome B respond render).
Abbreviation files_after := (files_after B respond render).
Abbreviation exit_status := (exit_status B respond render).

(** Symbolic execution of the script: unfold it, then split on the answer
    of the layer to each call in turn. *)
Ltac step :=
  match goal with
  | |- context [respond ?b ?c] =>
      destruct (respond b c) as [[?e|] ?b] eqn:?R
  end; cbn [browser files trace fst snd app].

Ltac run_cases b0 fs0 :=
  unfold returned, raised, exit_status, outcome,
    events, files_after;
  let res := fresh "res" in
  let w := fresh "w" in
  let Hrun := fresh "Hrun" in
  destruct (run B respond render b0 fs0) as [res w] eqn:Hrun;
  revert Hrun;
  unfold run, verify_grid_controls, with_sync_playwright, guarded_steps,
    on_error, try_finally, try_except, browser_close, locator, print,
    call, emit, bind, ret, raise;
  cbn [browser files trace fst snd app];
  repeat step;
  intros Hrun; injection Hrun as <- <-;
  cbn [browser files trace fst snd].

(** A membership hypothesis that no event of the trace satisfies. *)
Ltac absurd_in H :=
  exfalso; cbn [In] in H;
  repeat (destruct H as [H|H]; [discriminate H|]); exact H.

(** Split a membership hypothesis into the events that can match. *)
Ltac settle H :=
  cbn [In] in H;
  repeat (destruct H as [H|H];
          [first [discriminate H | (injection H; intros; subst)]|]);
  try contradiction.

Ltac in_list := cbn [In]; repeat (first [left; reflexivity | right]).

(** Lookups in a directory built from the captures of a run. *)
Ltac lookup_files :=
  cbn [written];
  repeat first
    [ rewrite lookup_insert_eq
    | rewrite lookup_insert_ne by first [congruence | discriminate] ];
  first [reflexivity | solve [eauto]].

(** C1: a run in which navigation, both waits, the click, the hover and
    both screenshots return writes the initial and the open-state capture
    (two success artifacts), attempts and writes no error capture, prints
    the completion message, and ends normally with exit status 0. *)
Theorem full_run_writes_two_artifacts (b0 : B) (fs0 : gmap string Png) :
  returned (Goto APP_URL None) (events b0 fs0) ->
  returned (WaitFor TRIGGER "visible" (Some TRIGGER_TIMEOUT)) (events b0 fs0) ->
  returned (Click TRIGGER None) (events b0 fs0) ->
  returned (WaitFor POPOVER "visible" (Some POPOVER_TIMEOUT)) (events b0 fs0) ->
  returned (Hover CELL_2_2 None) (events b0 fs0) ->
  returned (Screenshot PATH_INITIAL None) (events b0 fs0) ->
  returned (Screenshot PATH_OPEN None) (events b0 fs0) ->
  count (is_capture PATH_INITIAL) (events b0 fs0) = 1 /\
  count (is_capture PATH_OPEN) (events b0 fs0) = 1 /\
  success_artifacts (events b0 fs0) = 2 /\
  error_artifacts (events b0 fs0) = 0 /\
  count (is_attempt PATH_ERROR) (events b0 fs0) = 0 /\
  In MSG_DONE (stdout (events b0 fs0)) /\
  count is_error_log (events b0 fs0) = 0 /\
  outcome b0 fs0 = Ret tt /\
  exit_status b0 fs0 = 0%Z /\
  is_Some (files_after b0 fs0 !! PATH_INITIAL) /\
  is_Some (files_after b0 fs0 !! PATH_OPEN) /\
  files_after b0 fs0 !! PATH_ERROR = fs0 !! PATH_ERROR.
Proof.
  run_cases b0 fs0; intros _ _ _ _ _ _ Hopen; try (absurd_in Hopen).
  clear Hopen. unfold written.
  destruct paths_distinct as (Hio & Hie & Hoe).
  repeat split; try reflexivity.
  - cbn [stdout In]. auto 10.
  - rewrite lookup_insert_ne by congruence. rewrite lookup_insert_eq. eauto.
  - rewrite lookup_insert_eq. eauto.
  - rewrite !lookup_insert_ne by congruence. reflexivity.
Qed.

(** X8: for every path, a capture counted in the trace is a file in the
    directory afterwards, and a path the run did not capture keeps the
    file it had (or stays absent). *)
Lemma captures_are_files (b0 : B) (fs0 : gmap string Png) (p : string) :
  match count (is_capture p) (events b0 fs0) with
  | 0 => files_after b0 fs0 !! p = fs0 !! p
  | S _ => is_Some (files_after b0 fs0 !! p)
  end.
Proof.
  run_cases b0 fs0; cbn [count is_capture written].
  all: repeat match goal with
       | |- context [String.eqb ?x ?q] =>
           is_var x; destruct (String.eqb_spec x q) as [->|?]
       end.
  all: cbn [Nat.add]; lookup_files.
Qed.

(** C2 (amended): when the trigger wait raises, no success artifact is
    written, the error capture is attempted once and the run fails; the
    error artifact is written exactly when that capture returns. *)
Theorem trigger_timeout_run (b0 : B) (fs0 : gmap string Png) (e : Exception) :
  raised (WaitFor TRIGGER "visible" (Some TRIGGER_TIMEOUT)) e (events b0 fs0) ->
  success_artifacts (events b0 fs0) = 0 /\
  count (is_attempt PATH_ERROR) (events b0 fs0) = 1 /\
  exit_status b0 fs0 = 1%Z /\
  files_after b0 fs0 !! PATH_INITIAL = fs0 !! PATH_INITIAL /\
  files_after b0 fs0 !! PATH_OPEN = fs0 !! PATH_OPEN /\
  (returned (Screenshot PATH_ERROR None) (events b0 fs0) ->
     error_artifacts (events b0 fs0) = 1 /\
     is_Some (files_after b0 fs0 !! PATH_ERROR) /\
     outcome b0 fs0 = Raise e) /\
  (forall e', raised (Screenshot PATH_ERROR None) e' (events b0 fs0) ->
     error_artifacts (events b0 fs0) = 0 /\
     files_after b0 fs0 = fs0 /\
     outcome b0 fs0 = Raise e').
Proof.
  run_cases b0 fs0; intros H; settle H.
  all: repeat split; try reflexivity; try solve [lookup_files].
  all: intros; match goal with H' : In _ _ |- _ => settle H' end.
  all: repeat split; first [reflexivity | lookup_files].
Qed.

(** C3 (amended): when the trigger was visible and clicked and the popover
    wait raises, the initial capture is the only success artifact, the
    error capture is attempted once and the run fails; the error artifact
    is written exactly when that capture returns. *)
Theorem popover_timeout_run (b0 : B) (fs0 : gmap string Png) (e : Exception) :
  returned (WaitFor TRIGGER "visible" (Some TRIGGER_TIMEOUT)) (events b0 fs0) ->
  returned (Click TRIGGER None) (events b0 fs0) ->
  raised (WaitFor POPOVER "visible" (Some POPOVER_TIMEOUT)) e (events b0 fs0) ->
  count (is_capture PATH_INITIAL) (events b0 fs0) = 1 /\
  success_artifacts (events b0 fs0) = 1 /\
  count (is_attempt PATH_ERROR) (events b0 fs0) = 1 /\
  exit_status b0 fs0 = 1%Z /\
  is_Some (files_after b0 fs0 !! PATH_INITIAL) /\
  files_after b0 fs0 !! PATH_OPEN = fs0 !! PATH_OPEN /\
  (returned (Screenshot PATH_ERROR None) (events b0 fs0) ->
     error_artifacts (events b0 fs0) = 1 /\
     is_Some (files_after b0 fs0 !! PATH_ERROR) /\
     outcome b0 fs0 = Raise e) /\
  (forall e', raised (Screenshot PATH_ERROR None) e' (events b0 fs0) ->
     error_artifacts (events b0 fs0) = 0 /\
     files_after b0 fs0 !! PATH_ERROR = fs0 !! PATH_ERROR /\
     outcome b0 fs0 = Raise e').
Proof.
  run_cases b0 fs0; intros _ _ H; settle H.
  all: repeat split; try reflexivity; try solve [lookup_files].
  all: intros; match goal with H' : In _ _ |- _ => settle H' end.
  all: repeat split; first [reflexivity | lookup_files].
Qed.

(** C4: in every run the session is acquired once and released exactly
    once, as the last thing the run does, on every exit path.  Inside it
    [browser.close()] is never called twice; it is called exactly once
    when the page was created, which covers the three exits of the [try]:
    success, a step that raises, and an error capture that raises.  Only
    the release of the session follows it. *)
Theorem session_released_once (b0 : B) (fs0 : gmap string Png) :
  acquisitions (events b0 fs0) = 1 /\
  releases (events b0 fs0) = 1 /\
  last (events b0 fs0) = Some EvExit /\
  closes (events b0 fs0) <= 1 /\
  (closes (events b0 fs0) = 1 <-> returned NewPage (events b0 fs0)) /\
  (outcome b0 fs0 = Ret tt -> closes (events b0 fs0) = 1) /\
  (forall c e, In c GUARDED_CALLS -> raised c e (events b0 fs0) ->
     closes (events b0 fs0) = 1) /\
  (forall e, raised (Screenshot PATH_ERROR None) e (events b0 fs0) ->
     closes (events b0 fs0) = 1) /\
  after_first is_close (events b0 fs0) =
    (if session_acquired (events b0 fs0) then [EvExit] else []).
Proof.
  run_cases b0 fs0.
  all: split; [reflexivity|]; split; [reflexivity|]; split; [reflexivity|].
  all: split; [vm_compute; lia|].
  all: split; [split; intros H;
               first [reflexivity | discriminate H | absurd_in H | solve [in_list]]|].
  all: split; [intros H; first [reflexivity | discriminate H]|].
  all: split; [intros c e' Hc H; first [reflexivity | settle H; absurd_in Hc]|].
  all: split; [intros e' H; first [reflexivity | absurd_in H]|].
  all: reflexivity.
Qed.

Lemma popover_visible_inv (ev : Event) :
  popover_visible ev = true ->
  ev = EvCall (WaitFor POPOVER "visible" (Some POPOVER_TIMEOUT)) None.
Proof.
  destruct ev as [|c r| | | |]; try discriminate.
  destruct c as [| | |sel st t| | |]; try discriminate.
  destruct t as [t|], r; try discriminate.
  cbn [popover_visible]. intros H.
  apply andb_prop in H as [H Ht]. apply andb_prop in H as [Hsel Hst].
  apply String.eqb_eq in Hsel, Hst. apply Z.eqb_eq in Ht.
  subst. reflexivity.
Qed.

(** C5: whatever precedes a lookup of the grid cell or a hover in the
    trace of a run contains the popover wait that returned. *)
Theorem hover_only_after_popover (b0 : B) (fs0 : gmap string Png)
    (before : list Event) (ev : Event) (after : list Event) :
  events b0 fs0 = (before ++ ev :: after)%list ->
  uses_cell ev = true ->
  returned (WaitFor POPOVER "visible" (Some POPOVER_TIMEOUT)) before.
Proof.
  intros Hsplit Huse.
  assert (Hscan : guarded_by popover_visible uses_cell false (events b0 fs0) = true).
  { clear. run_cases b0 fs0; reflexivity. }
  destruct (guarded_by_sound _ _ _ _ Hscan _ _ _ Hsplit Huse)
    as [Hseen | (ev' & Hin & Hvis)]; [discriminate Hseen|].
  apply popover_visible_inv in Hvis. subst ev'. exact Hin.
Qed.

(** C6 (amended): a step between navigation and the second screenshot
    that raises [e] is the first call to raise; it is followed by the log
    line for [e], one attempt at the error capture, [browser.close()] and
    the exit of the context, and by nothing else.  The handler is entered
    once and the run fails.  When the error capture returns, the error
    artifact is written and [e] propagates; when it raises, nothing is
    written and its own exception propagates. *)
Theorem guarded_failure_handled_once (b0 : B) (fs0 : gmap string Png)
    (c : Call) (e : Exception) :
  In c GUARDED_CALLS ->
  raised c e (events b0 fs0) ->
  first_raise (events b0 fs0) = Some (c, e) /\
  count is_error_log (events b0 fs0) = 1 /\
  In (error_line e) (stdout (events b0 fs0)) /\
  count (is_attempt PATH_ERROR) (events b0 fs0) = 1 /\
  exit_status b0 fs0 = 1%Z /\
  exists r,
    after_first_raise (events b0 fs0) =
      [EvPrint (error_line e); EvCall (Screenshot PATH_ERROR None) r;
       EvClose; EvExit] /\
    outcome b0 fs0 = Raise (match r with None => e | Some e' => e' end) /\
    error_artifacts (events b0 fs0) = match r with None => 1 | Some _ => 0 end /\
    match r with
    | None => is_Some (files_after b0 fs0 !! PATH_ERROR)
    | Some _ => files_after b0 fs0 !! PATH_ERROR = fs0 !! PATH_ERROR
    end.
Proof.
  intros Hc. run_cases b0 fs0; intros H; settle H.
  all: try (absurd_in Hc).
  all: clear Hc; repeat split; try reflexivity; try solve [cbn [stdout]; in_list].
  all: eexists; split; [reflexivity|]; split; [reflexivity|].
  all: split; [reflexivity|lookup_files].
Qed.

(** C7: the only calls of a run that carry a timeout are the two waits:
    10 units on the trigger, 2 units on the popover. *)
Theorem explicit_timeouts (b0 : B) (fs0 : gmap string Png)
    (c : Call) (r : option Exception) :
  In (EvCall c r) (events b0 fs0) ->
  match c with
  | WaitFor sel st t =>
      st = "visible" /\
      ((sel = TRIGGER /\ t = Some (10 * MS_PER_UNIT)%Z) \/
       (sel = POPOVER /\ t = Some (2 * MS_PER_UNIT)%Z))
  | _ => timeout_of c = None
  end.
Proof.
  run_cases b0 fs0; intros H; settle H.
  all: first [reflexivity | split; [reflexivity|]; (left + right); split; reflexivity].
Qed.

(** What a run leaves in the working directory does not depend on what
    was there, file by file: its own captures on top of the prior files. *)
Lemma files_after_union (b0 : B) (prior : gmap string Png) :
  files_after b0 prior = files_after b0 ∅ ∪ prior.
Proof.
  unfold files_after.
  destruct (run B respond render b0 prior) as [res1 w1] eqn:H1.
  destruct (run B respond render b0 ∅) as [res2 w2] eqn:H2.
  revert H1 H2.
  unfold run, verify_grid_controls, with_sync_playwright, guarded_steps,
    on_error, try_finally, try_except, browser_close, locator, print,
    call, emit, bind, ret, raise;
  cbn [browser files trace fst snd app].
  repeat step.
  all: intros H1 H2; injection H1 as <- <-; injection H2 as <- <-.
  all: cbn [files snd written].
  all: rewrite <- ?insert_union_l, (left_id_L ∅ (∪)); reflexivity.
Qed.




(** C9: when the launch of the browser or the creation of the page
    raises, that exception propagates; the handler is not entered: no
    line is printed, no screenshot attempted, no file touched. *)
Theorem startup_failure_bypasses_handler (b0 : B) (fs0 : gmap string Png)
    (e : Exception) :
  raised Launch e (events b0 fs0) \/ raised NewPage e (events b0 fs0) ->
  outcome b0 fs0 = Raise e /\
  exit_status b0 fs0 = 1%Z /\
  count (is_attempt PATH_ERROR) (events b0 fs0) = 0 /\
  count is_error_log (events b0 fs0) = 0 /\
  stdout (events b0 fs0) = [] /\
  files_after b0 fs0 = fs0.
Proof.
  run_cases b0 fs0; intros [H|H]; settle H.
  all: repeat split; reflexivity.
Qed.

(** C10: when the error capture of the handler raises [e2], it is [e2]
    that leaves the run, not the exception [e1] that was caught and
    logged; [browser.close()] is still called, once, after it. *)
Theorem failing_error_capture_masks_error (b0 : B) (fs0 : gmap string Png)
    (e2 : Exception) :
  raised (Screenshot PATH_ERROR None) e2 (events b0 fs0) ->
  outcome b0 fs0 = Raise e2 /\
  exit_status b0 fs0 = 1%Z /\
  closes (events b0 fs0) = 1 /\
  error_artifacts (events b0 fs0) = 0 /\
  files_after b0 fs0 !! PATH_ERROR = fs0 !! PATH_ERROR /\
  exists c e1,
    first_raise (events b0 fs0) = Some (c, e1) /\
    In c GUARDED_CALLS /\
    after_first_raise (events b0 fs0) =
      [EvPrint (error_line e1); EvCall (Screenshot PATH_ERROR None) (Some e2);
       EvClose; EvExit] /\
    (e1 <> e2 -> outcome b0 fs0 <> Raise e1).
Proof.
  run_cases b0 fs0; intros H; settle H.
  all: repeat split; try reflexivity; try solve [lookup_files].
  all: eexists _, _; split; [reflexivity|]; split; [in_list|]; split; [reflexivity|].
  all: intros Hne Heq; apply Hne; injection Heq as ->; reflexivity.
Qed.

(** *** Further properties of every run *)

(** X1: the function returns normally exactly when the open-state
    screenshot returned, exactly when every call of the script returned,
    and exactly when the completion line was printed; in every other run
    it raises and the completion line is absent. *)
Theorem success_iff_completed (b0 : B) (fs0 : gmap string Png) :
  (outcome b0 fs0 = Ret tt <-> returned (Screenshot PATH_OPEN None) (events b0 fs0)) /\
  (outcome b0 fs0 = Ret tt <->
   forall c, In c SCRIPT_CALLS -> returned c (events b0 fs0)) /\
  (outcome b0 fs0 = Ret tt <-> In MSG_DONE (stdout (events b0 fs0))).
Proof.
  run_cases b0 fs0.
  all: repeat match goal with
       | |- _ /\ _ => split
       | |- _ <-> _ => split
       end; intros H.
  all: try reflexivity; try discriminate H.
  all: try solve [in_list | cbn [stdout]; in_list].
  all: try solve [intros c Hc; unfold SCRIPT_CALLS, GUARDED_CALLS in Hc;
                  cbn [In] in Hc;
                  repeat (destruct Hc as [Hc|Hc]; [subst c; solve [in_list]|]);
                  contradiction].
  all: try (absurd_in H).
  all: try (specialize (H (Screenshot PATH_OPEN None)
                          ltac:(unfold SCRIPT_CALLS, GUARDED_CALLS; in_list));
            absurd_in H).
  all: exfalso; cbn [stdout In] in H.
  all: repeat (destruct H as [H|H];
               [first [discriminate H | cbn in H; discriminate H]|]).
  all: exact H.
Qed.

Ltac script_prefix k :=
  exists k; eexists _, _; split; [reflexivity|];
  first [ left; split; [reflexivity|lia]
        | right; eexists; split; [reflexivity|lia] ].

(** X2: the calls of a run are the calls of the script in order, each
    issued only after all earlier ones returned.  Either all nine
    returned, or the run stops at the first one that raises, followed by
    nothing when that is the launch or the page creation and by the one
    error capture otherwise.  No call is repeated, skipped or resumed. *)
Theorem call_log_is_script_prefix (b0 : B) (fs0 : gmap string Png) :
  calls (events b0 fs0) = map ok SCRIPT_CALLS \/
  exists k c e,
    nth_error SCRIPT_CALLS k = Some c /\
    ((calls (events b0 fs0) = (map ok (firstn k SCRIPT_CALLS) ++ [(c, Some e)])%list
      /\ k < 2) \/
     (exists r,
        calls (events b0 fs0) =
          (map ok (firstn k SCRIPT_CALLS) ++
           [(c, Some e); (Screenshot PATH_ERROR None, r)])%list
        /\ 2 <= k)).
Proof.
  run_cases b0 fs0; cbn [calls].
  all: first [ left; reflexivity | right ].
  all: first [ script_prefix 0 | script_prefix 1 | script_prefix 2
             | script_prefix 3 | script_prefix 4 | script_prefix 5
             | script_prefix 6 | script_prefix 7 | script_prefix 8 ].
Qed.

(** X3: a run that got its page ends in exactly one of two ways: the
    open-state capture is written, or the error capture is attempted;
    never both and never neither. *)
Theorem open_capture_or_error_attempt (b0 : B) (fs0 : gmap string Png) :
  returned NewPage (events b0 fs0) ->
  count (is_capture PATH_OPEN) (events b0 fs0) +
  count (is_attempt PATH_ERROR) (events b0 fs0) = 1.
Proof.
  run_cases b0 fs0; intros H; first [absurd_in H | reflexivity].
Qed.

(** X4: a run writes each path at most once, and at most two files in
    all: the three artifacts never come from one run. *)
Theorem at_most_two_files (b0 : B) (fs0 : gmap string Png) :
  (forall p, count (is_capture p) (events b0 fs0) <= 1) /\
  success_artifacts (events b0 fs0) + error_artifacts (events b0 fs0) <= 2.
Proof.
  run_cases b0 fs0; (split; [intros p; cbn [count is_capture]|vm_compute; lia]).
  all: repeat match goal with
       | |- context [String.eqb ?x ?q] =>
           is_var x; destruct (String.eqb_spec x q) as [->|?]
       end.
  all: cbn; lia.
Qed.

(** X5: every run ends by leaving the playwright context, and nothing
    but that exit follows [browser.close()]: no call is made on a closed
    browser. *)
Theorem nothing_after_close (b0 : B) (fs0 : gmap string Png) :
  head (events b0 fs0) = Some EvEnter /\
  last (events b0 fs0) = Some EvExit /\
  after_first is_close (events b0 fs0) =
    (if session_acquired (events b0 fs0) then [EvExit] else []).
Proof.
  run_cases b0 fs0; repeat split; reflexivity.
Qed.

(** X7: the error line is printed at most once, and it is printed
    exactly in the failing runs that had got their page: a failure of the
    launch or of the page creation is never logged. *)
Theorem error_logged_iff_guarded_failure (b0 : B) (fs0 : gmap string Png) :
  count is_error_log (events b0 fs0) <= 1 /\
  (count is_error_log (events b0 fs0) = 1 <->
   exit_status b0 fs0 = 1%Z /\ returned NewPage (events b0 fs0)).
Proof.
  run_cases b0 fs0.
  all: split; [vm_compute; lia|].
  all: split; [intros H | intros [H1 H2]].
  all: first [ discriminate H | discriminate H1 | absurd_in H2
             | reflexivity | split; [reflexivity|solve [in_list]] ].
Qed.

(** X9: a run never removes a file: whatever was in the working
    directory is still there afterwards (overwritten at the paths the run
    captured), so artifacts of earlier runs survive a run that does not
    reach them. *)
Theorem never_deletes (b0 : B) (fs0 : gmap string Png) :
  dom fs0 ⊆ dom (files_after b0 fs0).
Proof.
  rewrite (files_after_union b0 fs0), dom_union_L.
  intros p Hp. apply elem_of_union. right. exact Hp.
Qed.

(** X10: standard output is fixed by the first call that raises.  When
    none does it is the six progress lines and the completion line; when
    the launch or the page creation raises it is empty; when a call of the
    [try] block raises [e] it is the progress lines printed up to that call
    followed by the error line for [e]. *)
Theorem stdout_shape (b0 : B) (fs0 : gmap string Png) :
  stdout (events b0 fs0) =
    match first_raise (events b0 fs0) with
    | None => (PROGRESS_LINES ++ [MSG_DONE])%list
    | Some (Launch, _) | Some (NewPage, _) => []
    | Some (c, e) =>
        (firstn (lines_before c) PROGRESS_LINES ++ [error_line e])%list
    end.
Proof.
  run_cases b0 fs0; reflexivity.
Qed.

(** X11: the initial artifact holds the page as it was when the trigger
    wait had returned, before the click, whatever happens later in the
    run; the open-state artifact holds the page as the hover left it. *)
Theorem captures_show_their_step (b0 : B) (fs0 : gmap string Png) :
  returned (Screenshot PATH_INITIAL None) (events b0 fs0) ->
  files_after b0 fs0 !! PATH_INITIAL =
    Some (render (state_after B respond (firstn 4 SCRIPT_CALLS) b0)) /\
  (returned (Screenshot PATH_OPEN None) (events b0 fs0) ->
   files_after b0 fs0 !! PATH_OPEN =
     Some (render (state_after B respond (firstn 8 SCRIPT_CALLS) b0))).
Proof.
  run_cases b0 fs0; intros H; try (absurd_in H); clear H.
  all: unfold state_after, SCRIPT_CALLS, GUARDED_CALLS; cbn [firstn fold_left].
  all: repeat match goal with
       | R : respond _ _ = _ |- _ => rewrite R; cbn [snd]
       end.
  all: split; [lookup_files|intros H; first [absurd_in H | lookup_files]].
Qed.

End Properties.

(** ** Concrete runs *)

Example healthy_run :
  events nat (scripted healthy) frame 0 empty_dir =
    [ EvEnter; EvCall Launch None; EvCall NewPage None;
      EvPrint "Navigating to app..."; EvCall (Goto APP_URL None) None;
      EvPrint "Waiting for grid controls..."; EvLocator TRIGGER;
      EvCall (WaitFor TRIGGER "visible" (Some 10000%Z)) None;
      EvPrint "Taking initial screenshot...";
      EvCall (Screenshot PATH_INITIAL None) None;
      EvPrint "Opening grid selector..."; EvCall (Click TRIGGER None) None;
      EvLocator POPOVER;
      EvCall (WaitFor POPOVER "visible" (Some 2000%Z)) None;
      EvPrint "Hovering over cell 2x2..."; EvLocator CELL_2_2;
      EvCall (Hover CELL_2_2 None) None;
      EvPrint "Taking open state screenshot...";
      EvCall (Screenshot PATH_OPEN None) None;
      EvPrint "Verification script completed successfully.";
      EvClose; EvExit ]
  /\ outcome nat (scripted healthy) frame 0 empty_dir = Ret tt
  /\ files_after nat (scripted healthy) frame 0 empty_dir =
       {[ PATH_INITIAL := frame 4; PATH_OPEN := frame 8 ]}.
Proof. vm_compute. repeat split. Qed.

(** Stale artifacts of an earlier run: the healthy run replaces the two it
    captures and leaves the third; running it again changes nothing. *)
Example healthy_rerun :
  let stale : gmap string Png :=
    {[ PATH_INITIAL := [Byte.x00]; PATH_OPEN := [Byte.x01];
       PATH_ERROR := [Byte.x02] ]} in
  files_after nat (scripted healthy) frame 0 stale =
    {[ PATH_INITIAL := frame 4; PATH_OPEN := frame 8; PATH_ERROR := [Byte.x02] ]}
  /\ files_after nat (scripted healthy) frame 0
       (files_after nat (scripted healthy) frame 0 stale) =
     files_after nat (scripted healthy) frame 0 stale.
Proof. vm_compute. split; reflexivity. Qed.

Example no_page_run :
  events nat (scripted no_page) frame 0 empty_dir =
    [ EvEnter; EvCall Launch None; EvCall NewPage (Some target_closed); EvExit ]
  /\ outcome nat (scripted no_page) frame 0 empty_dir = Raise target_closed.
Proof. vm_compute. split; reflexivity. Qed.

Example no_trigger_read_only_run :
  events nat (scripted no_trigger_read_only) frame 0 empty_dir =
    [ EvEnter; EvCall Launch None; EvCall NewPage None;
      EvPrint "Navigating to app..."; EvCall (Goto APP_URL None) None;
      EvPrint "Waiting for grid controls..."; EvLocator TRIGGER;
      EvCall (WaitFor TRIGGER "visible" (Some 10000%Z))
             (Some (timeout_error "trigger"));
      EvPrint "Error during verification: Timeout exceeded waiting for trigger";
      EvCall (Screenshot PATH_ERROR None) (Some io_error);
      EvClose; EvExit ]
  /\ outcome nat (scripted no_trigger_read_only) frame 0 empty_dir = Raise io_error
  /\ files_after nat (scripted no_trigger_read_only) frame 0 empty_dir = empty_dir.
Proof. vm_compute. repeat split. Qed.

Lemma full_run_writes_two_artifacts_witness :
  returned (Screenshot PATH_OPEN None) (events nat (scripted healthy) frame 0 empty_dir) /\
  success_artifacts (events nat (scripted healthy) frame 0 empty_dir) = 2 /\
  error_artifacts (events nat (scripted healthy) frame 0 empty_dir) = 0 /\
  exit_status nat (scripted healthy) frame 0 empty_dir = 0%Z.
Proof.
  split; [by_run|].
  destruct (full_run_writes_two_artifacts nat (scripted healthy) frame 0 empty_dir)
    as (_ & _ & Hsucc & Herr & _ & _ & _ & _ & Hexit & _); try by_run.
  split; [exact Hsucc|split; [exact Herr|exact Hexit]].
Defined.

Lemma trigger_timeout_run_witness :
  raised (WaitFor TRIGGER "visible" (Some TRIGGER_TIMEOUT)) (timeout_error "trigger")
    (events nat (scripted no_trigger) frame 0 empty_dir) /\
  success_artifacts (events nat (scripted no_trigger) frame 0 empty_dir) = 0 /\
  error_artifacts (events nat (scripted no_trigger) frame 0 empty_dir) = 1 /\
  exit_status nat (scripted no_trigger) frame 0 empty_dir = 1%Z.
Proof.
  assert (Hwait : raised (WaitFor TRIGGER "visible" (Some TRIGGER_TIMEOUT))
                    (timeout_error "trigger")
                    (events nat (scripted no_trigger) frame 0 empty_dir)) by by_run.
  split; [exact Hwait|].
  destruct (trigger_timeout_run nat (scripted no_trigger) frame 0 empty_dir _ Hwait)
    as (Hsucc & _ & Hexit & _ & _ & Hcap & _).
  split; [exact Hsucc|split; [|exact Hexit]].
  apply Hcap. by_run.
Defined.

(** C2 as worded fails when the error capture raises as well: the trigger
    wait times out, yet no error artifact is written. *)
Lemma trigger_timeout_statement_fails :
  ~ trigger_timeout_statement nat (scripted no_trigger_read_only) frame 0 empty_dir.
Proof.
  intros H.
  destruct (H (timeout_error "trigger")) as (_ & Herr & _); [by_run|].
  vm_compute in Herr. discriminate Herr.
Qed.

Lemma popover_timeout_run_witness :
  raised (WaitFor POPOVER "visible" (Some POPOVER_TIMEOUT)) (timeout_error "popover")
    (events nat (scripted no_popover) frame 0 empty_dir) /\
  success_artifacts (events nat (scripted no_popover) frame 0 empty_dir) = 1 /\
  error_artifacts (events nat (scripted no_popover) frame 0 empty_dir) = 1 /\
  exit_status nat (scripted no_popover) frame 0 empty_dir = 1%Z.
Proof.
  assert (Hwait : raised (WaitFor POPOVER "visible" (Some POPOVER_TIMEOUT))
                    (timeout_error "popover")
                    (events nat (scripted no_popover) frame 0 empty_dir)) by by_run.
  split; [exact Hwait|].
  destruct (popover_timeout_run nat (scripted no_popover) frame 0 empty_dir
              (timeout_error "popover"))
    as (_ & Hsucc & _ & Hexit & _ & _ & Hcap & _); try by_run.
  split; [exact Hsucc|split; [|exact Hexit]].
  apply Hcap. by_run.
Defined.

(** C3 as worded fails when the error capture raises as well. *)
Lemma popover_timeout_statement_fails :
  ~ popover_timeout_statement nat (scripted no_popover_no_error_capture) frame 0 empty_dir.
Proof.
  intros H.
  destruct (H (timeout_error "popover")) as (_ & Herr & _); try by_run.
  vm_compute in Herr. discriminate Herr.
Qed.

Lemma hover_only_after_popover_witness :
  uses_cell (EvLocator CELL_2_2) = true /\
  returned (WaitFor POPOVER "visible" (Some POPOVER_TIMEOUT))
    (firstn 15 (events nat (scripted healthy) frame 0 empty_dir)).
Proof.
  split; [reflexivity|].
  apply (hover_only_after_popover nat (scripted healthy) frame 0 empty_dir
           (firstn 15 (events nat (scripted healthy) frame 0 empty_dir))
           (EvLocator CELL_2_2)
           (skipn 16 (events nat (scripted healthy) frame 0 empty_dir))).
  - vm_compute. reflexivity.
  - reflexivity.
Defined.

Lemma guarded_failure_handled_once_witness :
  raised (WaitFor POPOVER "visible" (Some POPOVER_TIMEOUT)) (timeout_error "popover")
    (events nat (scripted no_popover) frame 0 empty_dir) /\
  first_raise (events nat (scripted no_popover) frame 0 empty_dir) =
    Some (WaitFor POPOVER "visible" (Some POPOVER_TIMEOUT), timeout_error "popover") /\
  count is_error_log (events nat (scripted no_popover) frame 0 empty_dir) = 1.
Proof.
  assert (Hwait : raised (WaitFor POPOVER "visible" (Some POPOVER_TIMEOUT))
                    (timeout_error "popover")
                    (events nat (scripted no_popover) frame 0 empty_dir)) by by_run.
  split; [exact Hwait|].
  destruct (guarded_failure_handled_once nat (scripted no_popover) frame 0 empty_dir
              (WaitFor POPOVER "visible" (Some POPOVER_TIMEOUT))
              (timeout_error "popover"))
    as (Hfirst & Hlog & _); [by_run|exact Hwait|].
  split; [exact Hfirst|exact Hlog].
Defined.

(** C6 as worded fails when the error capture raises as well: nothing is
    captured and the exception that was caught is not the one re-raised. *)
Lemma caught_and_reraised_statement_fails :
  ~ caught_and_reraised_statement nat (scripted unreachable_no_capture) frame 0 empty_dir.
Proof.
  intros H.
  destruct (H (Goto APP_URL None) (mkException Error "net::ERR_CONNECTION_REFUSED"))
    as (_ & _ & Herr & Hout & _); try by_run.
  vm_compute in Herr. discriminate Herr.
Qed.

Lemma explicit_timeouts_witness :
  In (EvCall (WaitFor TRIGGER "visible" (Some 10000%Z)) None)
    (events nat (scripted healthy) frame 0 empty_dir) /\
  Some 10000%Z = Some (10 * MS_PER_UNIT)%Z.
Proof.
  split; [by_run|].
  destruct (explicit_timeouts nat (scripted healthy) frame 0 empty_dir
              (WaitFor TRIGGER "visible" (Some 10000%Z)) None)
    as (_ & [(_ & Ht) | (Hsel & _)]); [by_run|exact Ht|discriminate Hsel].
Defined.

Lemma startup_failure_bypasses_handler_witness :
  raised NewPage target_closed (events nat (scripted no_page) frame 0 empty_dir) /\
  outcome nat (scripted no_page) frame 0 empty_dir = Raise target_closed /\
  stdout (events nat (scripted no_page) frame 0 empty_dir) = [].
Proof.
  assert (Hpage : raised NewPage target_closed
                    (events nat (scripted no_page) frame 0 empty_dir)) by by_run.
  split; [exact Hpage|].
  destruct (startup_failure_bypasses_handler nat (scripted no_page) frame 0 empty_dir
              target_closed (or_intror Hpage))
    as (Hout & _ & _ & _ & Hstd & _).
  split; [exact Hout|exact Hstd].
Defined.

Lemma failing_error_capture_masks_error_witness :
  raised (Screenshot PATH_ERROR None) io_error
    (events nat (scripted no_popover_no_error_capture) frame 0 empty_dir) /\
  outcome nat (scripted no_popover_no_error_capture) frame 0 empty_dir = Raise io_error /\
  closes (events nat (scripted no_popover_no_error_capture) frame 0 empty_dir) = 1.
Proof.
  assert (Hshot : raised (Screenshot PATH_ERROR None) io_error
            (events nat (scripted no_popover_no_error_capture) frame 0 empty_dir))
    by by_run.
  split; [exact Hshot|].
  destruct (failing_error_capture_masks_error nat (scripted no_popover_no_error_capture)
              frame 0 empty_dir io_error Hshot)
    as (Hout & _ & Hclose & _).
  split; [exact Hout|exact Hclose].
Defined.

Lemma open_capture_or_error_attempt_witness :
  returned NewPage (events nat (scripted no_popover) frame 0 empty_dir) /\
  count (is_capture PATH_OPEN) (events nat (scripted no_popover) frame 0 empty_dir) +
  count (is_attempt PATH_ERROR) (events nat (scripted no_popover) frame 0 empty_dir) = 1.
Proof.
  assert (Hpage : returned NewPage (events nat (scripted no_popover) frame 0 empty_dir))
    by by_run.
  split; [exact Hpage|].
  exact (open_capture_or_error_attempt nat (scripted no_popover) frame 0 empty_dir Hpage).
Defined.

Lemma captures_show_their_step_witness :
  returned (Screenshot PATH_INITIAL None)
    (events nat (scripted no_popover) frame 0 empty_dir) /\
  files_after nat (scripted no_popover) frame 0 empty_dir !! PATH_INITIAL =
    Some (frame 4).
Proof.
  assert (Hshot : returned (Screenshot PATH_INITIAL None)
                    (events nat (scripted no_popover) frame 0 empty_dir)) by by_run.
  split; [exact Hshot|].
  destruct (captures_show_their_step nat (scripted no_popover) frame 0 empty_dir Hshot)
    as (Hfile & _).
  exact Hfile.
Defined.
